(** * SparkETLPipeline: the filter-and-report runners

    A shallow embedding of [etl/csv_runner.py] ([run_csv_etl]), and of the
    two sibling runners [etl/pandas_runner.py] ([run_pandas_etl]) and
    [etl/ingest.py] ([ingest]), over an explicit model of the file system
    they read and write.

    Conventions of the embedding.
    - A Python [str] is a [string]; its characters are the code points
      below 256.
    - A CSV file is the sequence of rows that [csv.reader] yields from it,
      which is also the sequence of rows handed to [csv.writer.writerow].
    - A Python [int] is a [nat] (the counters only ever grow from 0).
    - A [dict] is a [gmap]: equality of dicts ignores insertion order.
    - Effects are threaded through a state-and-exception monad [IO] over
      the file system; [try ... except Exception] is [try_except].
    - [datetime.now()] is read from a [clock] argument.
    - Logging has no effect on results or files and is left out. *)

From Stdlib Require Import Ascii.
From stdpp Require Import gmap strings list fin_maps.

#[global] Set Warnings "-clear-no-such-hyp".

(** ** Python strings and lists *)

Module Py.

(** [str.isspace] on one character: U+0009..U+000D, U+001C..U+0020,
    U+0085 and U+00A0 are the white-space code points below 256. *)
Definition isspace (c : ascii) : bool :=
  let n := nat_of_ascii c in
  ((9 <=? n) && (n <=? 13)) || ((28 <=? n) && (n <=? 32))
  || (n =? 133) || (n =? 160).

(** [s.lstrip()] *)
Fixpoint lstrip (s : string) : string :=
  match s with
  | EmptyString => EmptyString
  | String c s' => if isspace c then lstrip s' else s
  end.

(** [s.rstrip()] *)
Fixpoint rstrip (s : string) : string :=
  match s with
  | EmptyString => EmptyString
  | String c s' =>
      match rstrip s' with
      | EmptyString => if isspace c then EmptyString else String c EmptyString
      | t => String c t
      end
  end.

(** [s.strip()]: white space removed at both ends. *)
Definition strip (s : string) : string := rstrip (lstrip s).

(** Truth value of a [str]: only the empty string is false. *)
Definition truthy (s : string) : bool :=
  match s with
  | EmptyString => false
  | String _ _ => true
  end.

(** Every character of [s] is white space (true of the empty string). *)
Fixpoint all_space (s : string) : bool :=
  match s with
  | EmptyString => true
  | String c s' => isspace c && all_space s'
  end.

(** [l.index(x)]: the first position of [x], [None] for [ValueError]. *)
Fixpoint index (x : string) (l : list string) : option nat :=
  match l with
  | [] => None
  | y :: l' => if String.eqb y x then Some 0 else S <$> index x l'
  end.

(** [row[i]] for [i < len(row)]; the code never indexes out of range, the
    value of the model there is the empty string. *)
Definition item (row : list string) (i : nat) : string :=
  default EmptyString (row !! i).

End Py.

(** ** The row filter and the preview sample of [run_csv_etl] *)

(** The condition of line 85:
    [imageid_index < len(row) and row[imageid_index].strip()]. *)
Definition accepts (imageid_index : nat) (row : list string) : bool :=
  bool_decide (imageid_index < length row)
  && Py.truthy (Py.strip (Py.item row imageid_index)).

(** Lines 91-96: the loop over [enumerate(header)] that fills
    [sample_row]; [i] is the running index, [sample_row] the dict so far. *)
Fixpoint fill_sample_row (row : list string) (i : nat) (cols : list string)
    (sample_row : gmap string string) : gmap string string :=
  match cols with
  | [] => sample_row
  | col :: cols' =>
      fill_sample_row row (S i) cols'
        (if bool_decide (i < length row)
         then <[col := Py.item row i]> sample_row
         else <[col := EmptyString]> sample_row)
  end.

Definition make_sample_row (header row : list string) : gmap string string :=
  fill_sample_row row 0 header ∅.

(** The local variables of the processing loop. *)
Record counters := Counters {
  initial_count : nat;
  transformed_count : nat;
  filtered_count : nat;
  sample_rows : list (gmap string string)
}.

Definition counters0 : counters := Counters 0 0 0 [].

(** ** The file system, exceptions and the [IO] monad *)

(** A table as pandas and Spark hold it: a cell is [None] when the reader
    made it null (NaN). *)
Record DataFrame := mkDataFrame {
  columns : list string;
  records : list (list (option string))
}.

(** A file is either CSV text, given by its rows, or a Parquet data set,
    given by the table it stores. *)
Inductive file :=
  | CsvFile (rows : list (list string))
  | ParquetFile (df : DataFrame).

(** Paths are POSIX path strings in canonical form; one string names one
    file. The working directory and the root always exist. *)
Record filesystem := FileSystem {
  files : gmap string file;
  dirs : gset string
}.

(** An exception: its class and [str(e)]. Every class used below derives
    from [Exception]. *)
Inductive exn := Exn (cls : string) (msg : string).

Definition str_exn (e : exn) : string :=
  match e with Exn _ msg => msg end.

Inductive outcome (A : Type) :=
  | Return (a : A)
  | Raise (e : exn).
Arguments Return {A} a.
Arguments Raise {A} e.

Definition IO (A : Type) : Type := filesystem → outcome A * filesystem.

#[global] Instance IO_ret : MRet IO := λ A a fs, (Return a, fs).

#[global] Instance IO_bind : MBind IO := λ A B f m fs,
  match m fs with
  | (Return a, fs') => f a fs'
  | (Raise e, fs') => (Raise e, fs')
  end.

Definition raise {A} (e : exn) : IO A := λ fs, (Raise e, fs).

(** [try: body except Exception as e: handler(e)] *)
Definition try_except {A} (body : IO A) (handler : exn → IO A) : IO A :=
  λ fs,
  match body fs with
  | (Return a, fs') => (Return a, fs')
  | (Raise e, fs') => handler e fs'
  end.

Definition OSError (cls errno strerror path : string) : exn :=
  Exn cls ("[Errno " +:+ errno +:+ "] " +:+ strerror +:+ ": '" +:+ path +:+ "'").

Definition FileNotFoundError (path : string) : exn :=
  OSError "FileNotFoundError" "2" "No such file or directory" path.
Definition IsADirectoryError (path : string) : exn :=
  OSError "IsADirectoryError" "21" "Is a directory" path.
Definition NotADirectoryError (path : string) : exn :=
  OSError "NotADirectoryError" "20" "Not a directory" path.
Definition FileExistsError (path : string) : exn :=
  OSError "FileExistsError" "17" "File exists" path.
Definition StopIteration : exn := Exn "StopIteration" "".
Definition SameFileError (src dst : string) : exn :=
  Exn "SameFileError"
      ("'" +:+ src +:+ "' and '" +:+ dst +:+ "' are the same file").
Definition UnicodeDecodeError (path : string) : exn :=
  Exn "UnicodeDecodeError" ("'utf-8' codec can't decode bytes of " +:+ path).

(** ** [os.path], [os], [open], [csv] and [shutil] *)

Module os_path.

Fixpoint has_sep (p : string) : bool :=
  match p with
  | EmptyString => false
  | String c p' => Ascii.eqb c "/" || has_sep p'
  end.

Fixpoint all_sep (p : string) : bool :=
  match p with
  | EmptyString => true
  | String c p' => Ascii.eqb c "/" && all_sep p'
  end.

(** [p[:p.rfind('/') + 1]] and [p[p.rfind('/') + 1:]] *)
Fixpoint head (p : string) : string :=
  match p with
  | EmptyString => EmptyString
  | String c p' => if has_sep p then String c (head p') else EmptyString
  end.

Fixpoint tail (p : string) : string :=
  match p with
  | EmptyString => EmptyString
  | String c p' => if has_sep p then tail p' else p
  end.

(** [s.rstrip('/')] *)
Fixpoint rstrip_sep (s : string) : string :=
  match s with
  | EmptyString => EmptyString
  | String c s' =>
      match rstrip_sep s' with
      | EmptyString =>
          if Ascii.eqb c "/" then EmptyString else String c EmptyString
      | t => String c t
      end
  end.

(** [posixpath.dirname]: the head, without its trailing slashes unless it
    consists of slashes only. *)
Definition dirname (p : string) : string :=
  let h := head p in
  if all_sep h then h else rstrip_sep h.

Definition basename (p : string) : string := tail p.

Definition startswith_sep (p : string) : bool :=
  match p with
  | String c _ => Ascii.eqb c "/"
  | EmptyString => false
  end.

Fixpoint endswith_sep (p : string) : bool :=
  match p with
  | EmptyString => false
  | String c EmptyString => Ascii.eqb c "/"
  | String _ p' => endswith_sep p'
  end.

(** [posixpath.join(a, b)] *)
Definition join (a b : string) : string :=
  if startswith_sep b then b
  else if String.eqb a "" || endswith_sep a then a +:+ b
  else a +:+ "/" +:+ b.

(** The root, however many slashes spell it. *)
Definition is_root (p : string) : bool :=
  negb (String.eqb p "") && all_sep p.

Definition isdir (fs : filesystem) (p : string) : bool :=
  is_root p || bool_decide (p ∈ dirs fs).

Definition isfile (fs : filesystem) (p : string) : bool :=
  bool_decide (is_Some (files fs !! p)).

Definition exists_ (fs : filesystem) (p : string) : bool :=
  isfile fs p || isdir fs p.

(** The directory that must exist for [p] to be created: the working
    directory when [p] has no directory part. *)
Definition parent_ok (fs : filesystem) (p : string) : bool :=
  String.eqb (dirname p) "" || isdir fs (dirname p).

End os_path.

Module os.

(** [p], its parent, its grandparent, ... up to the working directory or
    the root; [dirname] shortens every other path, so the length of [p]
    is fuel enough. *)
Fixpoint lineage (fuel : nat) (p : string) : list string :=
  match fuel with
  | 0 => []
  | S n =>
      if String.eqb p "" || os_path.is_root p then []
      else p :: lineage n (os_path.dirname p)
  end.

Definition ancestors (p : string) : list string :=
  lineage (String.length p) p.

(** [os.makedirs(name, exist_ok=True)]: creates [name] and the missing
    directories above it. The empty name is ENOENT; a regular file in the
    way is an error. *)
Definition makedirs (name : string) : IO unit := λ fs,
  if String.eqb name "" then (Raise (FileNotFoundError name), fs)
  else if os_path.isfile fs name then (Raise (FileExistsError name), fs)
  else if existsb (os_path.isfile fs) (ancestors name)
  then (Raise (NotADirectoryError name), fs)
  else (Return (), FileSystem (files fs)
                     (dirs fs ∪ list_to_set (ancestors name))).

End os.

(** [os.path.exists(p)] as an action. *)
Definition path_exists (p : string) : IO bool := λ fs,
  (Return (os_path.exists_ fs p), fs).

(** [open(p, 'r', newline='')] *)
Definition open_r (p : string) : IO unit := λ fs,
  if os_path.isdir fs p then (Raise (IsADirectoryError p), fs)
  else if os_path.isfile fs p then (Return (), fs)
  else (Raise (FileNotFoundError p), fs).

(** [open(p, 'w', newline='')]: creates the file or truncates it. *)
Definition open_w (p : string) : IO unit := λ fs,
  if os_path.isdir fs p then (Raise (IsADirectoryError p), fs)
  else if String.eqb (os_path.basename p) ""
  then (Raise (FileNotFoundError p), fs)
  else if os_path.parent_ok fs p
  then (Return (), FileSystem (<[p := CsvFile []]> (files fs)) (dirs fs))
  else (Raise (FileNotFoundError p), fs).

(** All the rows [csv.reader] yields from the file opened at [p], as the
    file is when the rows are read. *)
Definition csv_read (p : string) : IO (list (list string)) := λ fs,
  match files fs !! p with
  | Some (CsvFile rows) => (Return rows, fs)
  | Some (ParquetFile _) => (Raise (UnicodeDecodeError p), fs)
  | None => (Raise (FileNotFoundError p), fs)
  end.

Definition append_row (row : list string) (f : file) : file :=
  match f with
  | CsvFile rows => CsvFile (rows ++ [row])
  | ParquetFile df => ParquetFile df
  end.

(** [writer.writerow(row)] on the file opened for writing at [p]. *)
Definition csv_writerow (p : string) (row : list string) : IO unit := λ fs,
  (Return (), FileSystem (alter (append_row row) p (files fs)) (dirs fs)).

(** [shutil.copy(src, dst)]: into [dst] when that is a directory; the
    same file twice is [SameFileError]. *)
Definition shutil_copy (src dst : string) : IO unit := λ fs,
  let dst :=
    if os_path.isdir fs dst then os_path.join dst (os_path.basename src)
    else dst in
  if String.eqb src dst then (Raise (SameFileError src dst), fs)
  else match files fs !! src with
       | None =>
           (Raise (if os_path.isdir fs src then IsADirectoryError src
                   else FileNotFoundError src), fs)
       | Some f =>
           if os_path.isdir fs dst then (Raise (IsADirectoryError dst), fs)
           else if os_path.parent_ok fs dst
           then (Return (), FileSystem (<[dst := f]> (files fs)) (dirs fs))
           else (Raise (FileNotFoundError dst), fs)
       end.

(** ** [run_csv_etl] (etl/csv_runner.py) *)

(** The values stored in a result dict. *)
Inductive pyvalue :=
  | PyBool (b : bool)
  | PyStr (s : string)
  | PyStats (d : gmap string nat)
  | PyRows (l : list (gmap string string))
  | PyRecords (l : list (gmap string (option string))).

(** The two readings of [datetime.now()] that reach a path or a result:
    [strftime("%Y%m%d_%H%M%S")] when the default output directory is
    named, [isoformat()] when the result dict is built. *)
Record clock := Clock {
  strftime_now : string;
  isoformat_now : string
}.

(** [{"success": False, "error": error, "timestamp": ...}] *)
Definition failure_result (ck : clock) (error : string)
    : gmap string pyvalue :=
  <["success" := PyBool false]>
  (<["error" := PyStr error]>
  (<["timestamp" := PyStr (isoformat_now ck)]> ∅)).

(** The dict of lines 110-120. *)
Definition success_result (ck : clock) (c : counters) (output_path : string)
    : gmap string pyvalue :=
  <["success" := PyBool true]>
  (<["timestamp" := PyStr (isoformat_now ck)]>
  (<["statistics" :=
       PyStats (<["initial_count" := initial_count c]>
               (<["transformed_count" := transformed_count c]>
               (<["filtered_count" := filtered_count c]> ∅)))]>
  (<["sample_rows" := PyRows (sample_rows c)]>
  (<["output_path" := PyStr output_path]> ∅)))).

(** The body of the [for row in reader] loop, lines 82-99. *)
Definition process_row (output_path : string) (header : list string)
    (imageid_index : nat) (c : counters) (row : list string) : IO counters :=
  let c := Counters (initial_count c + 1) (transformed_count c)
                    (filtered_count c) (sample_rows c) in
  if accepts imageid_index row then
    _ ← csv_writerow output_path row;
    let c := Counters (initial_count c) (transformed_count c + 1)
                      (filtered_count c) (sample_rows c) in
    if transformed_count c <=? 5 then
      mret (Counters (initial_count c) (transformed_count c)
                     (filtered_count c)
                     (sample_rows c ++ [make_sample_row header row]))
    else mret c
  else
    mret (Counters (initial_count c) (transformed_count c)
                   (filtered_count c + 1) (sample_rows c)).

Fixpoint process_rows (output_path : string) (header : list string)
    (imageid_index : nat) (rows : list (list string)) (c : counters)
    : IO counters :=
  match rows with
  | [] => mret c
  | row :: rows' =>
      c' ← process_row output_path header imageid_index c row;
      process_rows output_path header imageid_index rows' c'
  end.

Definition default_input_path : string := "data/labels.csv".
Definition fixed_output_path : string := "data/output/latest_processed.csv".

(** Lines 42-48: the output path, and the directory made for it. *)
Definition choose_output_path (ck : clock) (output_path : option string)
    : IO string :=
  match output_path with
  | None =>
      let output_dir := "data/output/csv_" +:+ strftime_now ck in
      _ ← os.makedirs output_dir;
      mret (os_path.join output_dir "processed_data.csv")
  | Some output_path =>
      _ ← os.makedirs (os_path.dirname output_path);
      mret output_path
  end.

(** Lines 54-120, the body of the [try]. *)
Definition csv_etl_body (ck : clock) (input_path output_path : string)
    : IO (gmap string pyvalue) :=
  _ ← open_r input_path;
  _ ← open_w output_path;
  rows ← csv_read input_path;
  match rows with
  | [] => raise StopIteration
  | header :: data =>
      _ ← csv_writerow output_path header;
      match Py.index "ImageID" header with
      | None =>
          mret (failure_result ck
                  "CSV file does not contain an 'ImageID' column")
      | Some imageid_index =>
          c ← process_rows output_path header imageid_index data counters0;
          _ ← shutil_copy output_path fixed_output_path;
          mret (success_result ck c output_path)
      end
  end.

Definition run_csv_etl (ck : clock) (input_path output_path : option string)
    : IO (gmap string pyvalue) :=
  let input_path := default default_input_path input_path in
  found ← path_exists input_path;
  if negb found then
    mret (failure_result ck
            ("Input file " +:+ input_path +:+ " does not exist"))
  else
    output_path ← choose_output_path ck output_path;
    try_except (csv_etl_body ck input_path output_path)
               (λ e, mret (failure_result ck (str_exn e))).

(** ** The sibling runners: pandas and Spark

    pandas and Spark are libraries outside the repository. A table as
    they hold it is a [DataFrame]: a cell is [None] when it is null (NaN),
    otherwise the text of its value. How the libraries turn a CSV file
    into a table (quoting, line breaks, blank lines, type inference,
    column names) and how they store a table as Parquet is not described
    here: reading and writing are the operations of the class
    [DataLibraries], and the runners are defined over any such
    operations. What the runners do with a table in between (the null
    filters and the row counts) is defined on [DataFrame]. *)

Class DataLibraries := {
  (** [pd.read_csv(path)] *)
  pd_read_csv : string → IO DataFrame;
  (** [df.to_parquet(path, index=False)] *)
  pd_to_parquet : DataFrame → string → IO unit;
  (** [pd.read_parquet(path)] *)
  pd_read_parquet : string → IO DataFrame;
  (** [spark.read.option("header", "true").csv(path)] *)
  spark_read_csv : string → IO DataFrame;
  (** [df.write.mode("overwrite").parquet(path)] *)
  spark_write_parquet : DataFrame → string → IO unit
}.

(** [len(df)], [df.count()] *)
Definition df_len (df : DataFrame) : nat := length (records df).

(** The cell of a record in column [i] is present and not null. *)
Definition not_null_at (i : nat) (rec : list (option string)) : bool :=
  match rec !! i with
  | Some (Some _) => true
  | _ => false
  end.

(** The positions, counted from [i], of the names that satisfy [P]. *)
Fixpoint positions_from (P : string → bool) (i : nat) (names : list string)
    : list nat :=
  match names with
  | [] => []
  | name :: names' =>
      if P name then i :: positions_from P (S i) names'
      else positions_from P (S i) names'
  end.

Module pd.

Definition KeyError (key : string) : exn :=
  Exn "KeyError" ("['" +:+ key +:+ "']").

(** The columns labelled [col]. *)
Definition labelled (col : string) (columns : list string) : list nat :=
  positions_from (String.eqb col) 0 columns.

(** No cell of the record in the columns [ps] is null. *)
Definition complete (ps : list nat) (rec : list (option string)) : bool :=
  forallb (λ i, not_null_at i rec) ps.

(** [df.dropna(subset=[col])]: [KeyError] when no column is labelled
    [col]; otherwise the records with no null under that label. *)
Definition dropna (col : string) (df : DataFrame) : IO DataFrame :=
  match labelled col (columns df) with
  | [] => raise (KeyError col)
  | ps =>
      mret (mkDataFrame (columns df)
              (filter (λ rec, complete ps rec = true) (records df)))
  end.

(** [df.head(n).to_dict(orient='records')] *)
Definition head_records (n : nat) (df : DataFrame)
    : list (gmap string (option string)) :=
  (λ rec, list_to_map (zip (columns df) rec)) <$> take n (records df).

End pd.

(** Lines 87-98 of pandas_runner.py. *)
Definition pandas_success_result (ck : clock)
    (initial_count transformed_count validation_count : nat)
    (sample_rows : list (gmap string (option string))) (output_path : string)
    : gmap string pyvalue :=
  <["success" := PyBool true]>
  (<["timestamp" := PyStr (isoformat_now ck)]>
  (<["statistics" :=
       PyStats (<["initial_count" := initial_count]>
               (<["transformed_count" := transformed_count]>
               (<["filtered_count" := initial_count - transformed_count]>
               (<["validated_count" := validation_count]> ∅))))]>
  (<["sample_rows" := PyRecords sample_rows]>
  (<["output_path" := PyStr output_path]> ∅)))).

Module spark.

(** The session [initialize_spark] returns; it carries no data. *)
Inductive SparkSession := Session.

Definition AnalysisException (msg col : string) : exn :=
  Exn "AnalysisException" (msg +:+ " '" +:+ col +:+ "'").

(** Column names are compared without regard to case
    ([spark.sql.caseSensitive] is false by default). *)
Definition lower_char (c : ascii) : ascii :=
  let n := nat_of_ascii c in
  if ((65 <=? n) && (n <=? 90))
     || ((192 <=? n) && (n <=? 222) && negb (n =? 215))
  then ascii_of_nat (n + 32)
  else c.

Fixpoint lower (s : string) : string :=
  match s with
  | EmptyString => EmptyString
  | String c s' => String (lower_char c) (lower s')
  end.

(** The column [col(c)] refers to: the only one of that name; no such
    column and several such columns are both an [AnalysisException]. *)
Definition resolve (c : string) (columns : list string) : outcome nat :=
  match positions_from (λ name, String.eqb (lower name) (lower c)) 0 columns
  with
  | [] => Raise (AnalysisException "cannot resolve" c)
  | [i] => Return i
  | _ :: _ :: _ => Raise (AnalysisException "Reference is ambiguous:" c)
  end.

(** [df.filter(col(c).isNotNull())] *)
Definition filter_isNotNull (c : string) (df : DataFrame) : IO DataFrame :=
  match resolve c (columns df) with
  | Raise e => raise e
  | Return i =>
      mret (mkDataFrame (columns df)
              (filter (λ rec, not_null_at i rec = true) (records df)))
  end.

End spark.

Definition initialize_spark : IO spark.SparkSession := mret spark.Session.

Section runners.

Context `{DataLibraries}.

(** Lines 52-98 of pandas_runner.py, the body of the [try]. *)
Definition pandas_etl_body (ck : clock) (input_path output_path : string)
    : IO (gmap string pyvalue) :=
  df ← pd_read_csv input_path;
  let initial_count := df_len df in
  df ← pd.dropna "ImageID" df;
  let transformed_count := df_len df in
  _ ← pd_to_parquet df output_path;
  validation_df ← pd_read_parquet output_path;
  let validation_count := df_len validation_df in
  let sample_rows := pd.head_records 5 validation_df in
  mret (pandas_success_result ck initial_count transformed_count
          validation_count sample_rows output_path).

Definition run_pandas_etl (ck : clock)
    (input_path output_path : option string) : IO (gmap string pyvalue) :=
  let input_path := default default_input_path input_path in
  found ← path_exists input_path;
  if negb found then
    mret (failure_result ck
            ("Input file " +:+ input_path +:+ " does not exist"))
  else
    let output_path :=
      default ("data/output/parquet_" +:+ strftime_now ck) output_path in
    _ ← os.makedirs (os_path.dirname output_path);
    try_except (pandas_etl_body ck input_path output_path)
               (λ e, mret (failure_result ck (str_exn e))).

(** [ingest] of etl/ingest.py; the handler logs and re-raises. *)
Definition ingest (input_path output_path : option string)
    : IO (spark.SparkSession * string) :=
  let input_path := default default_input_path input_path in
  let output_path := default "data/output/parquet" output_path in
  found ← path_exists input_path;
  if negb found then
    raise (Exn "FileNotFoundError"
             ("The input file " +:+ input_path +:+ " does not exist."))
  else
    _ ← os.makedirs (os_path.dirname output_path);
    session ← initialize_spark;
    try_except
      (df ← spark_read_csv input_path;
       let total_rows := df_len df in
       filtered_df ← spark.filter_isNotNull "ImageID" df;
       let filtered_rows := df_len filtered_df in
       _ ← spark_write_parquet filtered_df output_path;
       mret (session, output_path))
      (λ e, raise e).

End runners.

(** ** Reading a result dict *)

Definition succeeded (res : gmap string pyvalue) : Prop :=
  res !! "success" = Some (PyBool true).

(** [res["statistics"][k]] *)
Definition stat (res : gmap string pyvalue) (k : string) : option nat :=
  match res !! "statistics" with
  | Some (PyStats d) => d !! k
  | _ => None
  end.

(** [res["sample_rows"]] of a [run_csv_etl] result. *)
Definition result_sample_rows (res : gmap string pyvalue)
    : option (list (gmap string string)) :=
  match res !! "sample_rows" with
  | Some (PyRows l) => Some l
  | _ => None
  end.

(** [res["output_path"]] *)
Definition result_output_path (res : gmap string pyvalue) : option string :=
  match res !! "output_path" with
  | Some (PyStr p) => Some p
  | _ => None
  end.

(** ** The counters of the loop, without its writes *)

Definition tally_row (header : list string) (imageid_index : nat)
    (c : counters) (row : list string) : counters :=
  if accepts imageid_index row then
    Counters (initial_count c + 1) (transformed_count c + 1)
             (filtered_count c)
             (if transformed_count c + 1 <=? 5
              then sample_rows c ++ [make_sample_row header row]
              else sample_rows c)
  else
    Counters (initial_count c + 1) (transformed_count c)
             (filtered_count c + 1) (sample_rows c).

Definition tally (header : list string) (imageid_index : nat)
    (rows : list (list string)) (c : counters) : counters :=
  foldl (tally_row header imageid_index) c rows.

(** The rows the loop writes. *)
Definition kept (imageid_index : nat) (rows : list (list string))
    : list (list string) :=
  filter (λ row, accepts imageid_index row = true) rows.

Definition append_rows (rows' : list (list string)) (f : file) : file :=
  match f with
  | CsvFile rows => CsvFile (rows ++ rows')
  | ParquetFile df => ParquetFile df
  end.

(** What the claims call a row of the sample: a value for every header
    name, the one at the (last) column of that name, empty beyond the
    end of the row. *)
Definition padded_record (header row : list string)
    (m : gmap string string) : Prop :=
  dom m = list_to_set header ∧
  ∀ i col, header !! i = Some col →
    (∀ j, i < j → header !! j ≠ Some col) →
    m !! col = Some (default "" (row !! i)).

(** The path a run writes to: the one given, or the default of lines
    43-46. *)
Definition chosen_output_path (ck : clock) (output_path : option string)
    : string :=
  match output_path with
  | Some p => p
  | None =>
      os_path.join ("data/output/csv_" +:+ strftime_now ck)
                   "processed_data.csv"
  end.

(** ** A small environment for examples *)

Definition example_clock : clock :=
  Clock "20240101_120000" "2024-01-01T12:00:00".

Definition labels_header : list string :=
  ["ImageID"; "LabelName"; "Confidence"].

(** A file system that holds [table] at the default input path and
    nothing else. *)
Definition example_fs (table : list (list string)) : filesystem :=
  FileSystem {[ default_input_path := CsvFile table ]} {[ "data" ]}.

(** The table of the scenario in the specification. *)
Definition scenario_table : list (list string) :=
  [ labels_header;
    [""; "cat"; "0.9"];
    ["i2"; "dog"; "0.8"];
    ["i3"; ""; "0.5"] ].

(** The value an action returned, [d] if it raised. *)
Definition value_or {A} (d : A) (o : outcome A) : A :=
  match o with
  | Return a => a
  | Raise _ => d
  end.

(** The run of the scenario with default paths. *)
Definition scenario_run : outcome (gmap string pyvalue) * filesystem :=
  run_csv_etl example_clock None None (example_fs scenario_table).

(** ** Comparing what the three runners keep *)



(** ** Library operations for the examples

    What the readers deliver for the small tables of the examples below:
    rows as wide as the header, several columns, cells without quotes or
    line breaks. The header names the columns and each data row gives one
    record; pandas reads the texts of [na_values] as NaN, Spark reads the
    empty text as null, and both keep any other text, a blank included.
    A Parquet data set is stored as the table it holds. *)
Module plain.

(** The texts [pd.read_csv] reads as NaN by default. *)
Definition na_values : list string :=
  [""; "#N/A"; "#N/A N/A"; "#NA"; "-1.#IND"; "-1.#QNAN"; "-NaN"; "-nan";
   "1.#IND"; "1.#QNAN"; "<NA>"; "N/A"; "NA"; "NULL"; "NaN"; "None";
   "n/a"; "nan"; "null"].

Definition pd_cell (s : string) : option string :=
  if bool_decide (s ∈ na_values) then None else Some s.

Definition spark_cell (s : string) : option string :=
  if String.eqb s "" then None else Some s.

Definition read_table (cell : string → option string) (p : string)
    : IO DataFrame := λ fs,
  match files fs !! p with
  | Some (CsvFile (header :: data)) =>
      (Return (mkDataFrame header ((λ row : list string, cell <$> row) <$> data)), fs)
  | Some (CsvFile []) =>
      (Raise (Exn "EmptyDataError" "No columns to parse from file"), fs)
  | Some (ParquetFile _) => (Raise (UnicodeDecodeError p), fs)
  | None => (Raise (FileNotFoundError p), fs)
  end.

Definition write_table (df : DataFrame) (p : string) : IO unit := λ fs,
  if os_path.isdir fs p then (Raise (IsADirectoryError p), fs)
  else if os_path.parent_ok fs p
  then (Return (), FileSystem (<[p := ParquetFile df]> (files fs)) (dirs fs))
  else (Raise (FileNotFoundError p), fs).

Definition read_parquet (p : string) : IO DataFrame := λ fs,
  match files fs !! p with
  | Some (ParquetFile df) => (Return df, fs)
  | Some (CsvFile _) => (Raise (Exn "ArrowInvalid" "not a Parquet file"), fs)
  | None => (Raise (FileNotFoundError p), fs)
  end.

End plain.

#[global] Instance plain_libraries : DataLibraries := {|
  pd_read_csv := plain.read_table plain.pd_cell;
  pd_to_parquet := plain.write_table;
  pd_read_parquet := plain.read_parquet;
  spark_read_csv := plain.read_table plain.spark_cell;
  spark_write_parquet := plain.write_table
|}.

(** * Properties *)

(** ** Strings *)

Section strings.

Lemma all_space_lstrip s : Py.all_space (Py.lstrip s) = Py.all_space s.
Proof.
  induction s as [|c s IH]; simpl; [done|].
  destruct (Py.isspace c) eqn:E; simpl; by rewrite ?E.
Qed.

Lemma rstrip_empty s : Py.rstrip s = "" ↔ Py.all_space s = true.
Proof.
  induction s as [|c s IH]; simpl; [done|].
  destruct (Py.rstrip s) eqn:Er.
  - destruct (Py.isspace c); simpl; [by rewrite <- IH|done].
  - split; [done|]. intros [_ H]%andb_true_iff. by apply IH in H.
Qed.

(** Trimming leaves something exactly when some character is not white
    space. *)
Lemma truthy_strip s : Py.truthy (Py.strip s) = negb (Py.all_space s).
Proof.
  unfold Py.strip. rewrite <- (all_space_lstrip s).
  destruct (Py.rstrip (Py.lstrip s)) eqn:E; simpl.
  - apply rstrip_empty in E. by rewrite E.
  - destruct (Py.all_space (Py.lstrip s)) eqn:Ea; [|done].
    apply rstrip_empty in Ea. congruence.
Qed.

Lemma truthy_nonempty s : Py.truthy s = true ↔ s ≠ "".
Proof. by destruct s. Qed.

Lemma index_Some x l i :
  Py.index x l = Some i → l !! i = Some x ∧ ∀ j, j < i → l !! j ≠ Some x.
Proof.
  revert i. induction l as [|y l IH]; intros i; simpl; [done|].
  destruct (String.eqb_spec y x) as [->|Hne].
  - intros [= <-]. split; [done|]. lia.
  - destruct (Py.index x l) as [k|] eqn:E; simpl; [|done].
    intros [= <-]. destruct (IH k eq_refl) as [H1 H2]. split; [done|].
    intros [|j] Hj; simpl; [congruence|]. apply H2. lia.
Qed.

Lemma index_None x l : Py.index x l = None → x ∉ l.
Proof.
  induction l as [|y l IH]; simpl; [intros _; apply not_elem_of_nil|].
  destruct (String.eqb_spec y x) as [->|Hne]; [done|].
  destruct (Py.index x l); simpl; [done|].
  intros _. rewrite not_elem_of_cons. split; [congruence|by apply IH].
Qed.

End strings.

(** ** The filter *)

Lemma accepts_iff imageid_index row :
  accepts imageid_index row = true ↔
  imageid_index < length row ∧
  ∃ v, row !! imageid_index = Some v ∧ Py.strip v ≠ "".
Proof.
  unfold accepts, Py.item. rewrite andb_true_iff, bool_decide_eq_true.
  rewrite truthy_nonempty. split.
  - intros [Hlt Hne]. split; [done|].
    destruct (lookup_lt_is_Some_2 row imageid_index Hlt) as [v Hv].
    rewrite Hv in Hne. eauto.
  - intros [Hlt (v & Hv & Hne)]. rewrite Hv. done.
Qed.

Lemma accepts_not_blank imageid_index row :
  accepts imageid_index row = true ↔
  ∃ v, row !! imageid_index = Some v ∧ Py.all_space v = false.
Proof.
  rewrite accepts_iff. split.
  - intros [_ (v & Hv & Hne)]. exists v. split; [done|].
    apply truthy_nonempty in Hne. rewrite truthy_strip in Hne.
    by destruct (Py.all_space v).
  - intros (v & Hv & Hs). split; [by eapply lookup_lt_Some|].
    exists v. split; [done|]. apply truthy_nonempty.
    by rewrite truthy_strip, Hs.
Qed.

(** ** The sample row *)

Lemma fill_sample_row_cons row i col cols m :
  fill_sample_row row i (col :: cols) m =
  fill_sample_row row (S i) cols (<[col := default "" (row !! i)]> m).
Proof.
  simpl. case_bool_decide as H; [done|].
  by rewrite (lookup_ge_None_2 row i) by lia.
Qed.

Lemma fill_sample_row_dom row cols : ∀ i m,
  dom (fill_sample_row row i cols m) = dom m ∪ list_to_set cols.
Proof.
  induction cols as [|col cols IH]; intros i m.
  - simpl. set_solver.
  - rewrite fill_sample_row_cons, IH, dom_insert_L. set_solver.
Qed.

Lemma fill_sample_row_notin row cols col : ∀ i m,
  col ∉ cols → fill_sample_row row i cols m !! col = m !! col.
Proof.
  induction cols as [|c cols IH]; intros i m Hn; [done|].
  apply not_elem_of_cons in Hn as [Hne Hn].
  rewrite fill_sample_row_cons, IH by done. by rewrite lookup_insert_ne.
Qed.

Lemma fill_sample_row_last row cols : ∀ i m j col,
  cols !! j = Some col →
  (∀ k, j < k → cols !! k ≠ Some col) →
  fill_sample_row row i cols m !! col = Some (default "" (row !! (i + j))).
Proof.
  induction cols as [|c cols IH]; intros i m j col Hj Hlast; [done|].
  rewrite fill_sample_row_cons. destruct j as [|j]; simpl in Hj.
  - injection Hj as ->. rewrite fill_sample_row_notin.
    + by rewrite lookup_insert_eq, Nat.add_0_r.
    + intros [k Hk]%list_elem_of_lookup. by apply (Hlast (S k)); [lia|].
  - rewrite (IH (S i) _ j col Hj).
    + do 3 f_equal. lia.
    + intros k Hk. apply (Hlast (S k)). lia.
Qed.

Lemma make_sample_row_padded header row :
  padded_record header row (make_sample_row header row).
Proof.
  split.
  - unfold make_sample_row. rewrite fill_sample_row_dom. set_solver.
  - intros i col Hi Hlast. unfold make_sample_row.
    by rewrite (fill_sample_row_last row header 0 ∅ i col Hi Hlast).
Qed.

(** ** The [IO] monad and the file-system calls *)

Lemma bind_Return {A B} (m : IO A) (f : A → IO B) fs b fs' :
  (m ≫= f) fs = (Return b, fs') →
  ∃ a fs1, m fs = (Return a, fs1) ∧ f a fs1 = (Return b, fs').
Proof.
  unfold mbind, IO_bind. destruct (m fs) as [[a|e] fs1]; [eauto|done].
Qed.

Lemma bind_run {A B} (m : IO A) (f : A → IO B) fs a fs1 :
  m fs = (Return a, fs1) → (m ≫= f) fs = f a fs1.
Proof. unfold mbind, IO_bind. by intros ->. Qed.

Lemma bind_raise {A B} (m : IO A) (f : A → IO B) fs e fs1 :
  m fs = (Raise e, fs1) → (m ≫= f) fs = (Raise e, fs1).
Proof. unfold mbind, IO_bind. by intros ->. Qed.

Lemma makedirs_Return name fs u fs1 :
  os.makedirs name fs = (Return u, fs1) →
  files fs1 = files fs ∧ name ≠ "".
Proof.
  unfold os.makedirs. destruct (String.eqb_spec name ""); [done|].
  repeat case_match; try done. by intros [= _ <-].
Qed.

Lemma open_r_Return p fs u fs1 :
  open_r p fs = (Return u, fs1) → fs1 = fs ∧ is_Some (files fs !! p).
Proof.
  unfold open_r, os_path.isfile. repeat case_match; try done.
  intros [= _ <-]. split; [done|]. by eapply bool_decide_eq_true_1.
Qed.

Lemma open_w_Return p fs u fs1 :
  open_w p fs = (Return u, fs1) →
  fs1 = FileSystem (<[p := CsvFile []]> (files fs)) (dirs fs).
Proof. unfold open_w. repeat case_match; try done. by intros [= _ <-]. Qed.

Lemma csv_read_Return p fs rows fs1 :
  csv_read p fs = (Return rows, fs1) →
  fs1 = fs ∧ files fs !! p = Some (CsvFile rows).
Proof.
  unfold csv_read. repeat case_match; try done. by intros [= <- <-].
Qed.

Lemma shutil_copy_Return src dst fs u fs1 :
  shutil_copy src dst fs = (Return u, fs1) →
  files fs1 !! src = files fs !! src.
Proof.
  unfold shutil_copy.
  set (dst' := if os_path.isdir fs dst then _ else dst).
  destruct (String.eqb_spec src dst') as [|Hne]; [done|].
  repeat case_match; try done. intros [= _ <-]. simpl.
  by rewrite lookup_insert_ne.
Qed.

Lemma try_except_Return {A} (body : IO A) handler fs a fs' :
  try_except body handler fs = (Return a, fs') →
  body fs = (Return a, fs') ∨
  ∃ e fs1, body fs = (Raise e, fs1) ∧ handler e fs1 = (Return a, fs').
Proof.
  unfold try_except. destruct (body fs) as [[b|e] fs1]; [by left|].
  right. eauto.
Qed.

Lemma failure_not_succeeded ck error : ¬ succeeded (failure_result ck error).
Proof. unfold succeeded, failure_result. by rewrite lookup_insert_eq. Qed.

(** ** The processing loop *)

Lemma alter_append_nil p (fl : gmap string file) :
  alter (append_rows []) p fl = fl.
Proof.
  apply map_eq. intros q. rewrite lookup_alter.
  case_decide; [|done]. subst. destruct (fl !! q) as [[]|]; simpl; [|done..].
  by rewrite app_nil_r.
Qed.

Lemma process_row_run output_path header imageid_index c row fs :
  process_row output_path header imageid_index c row fs =
  (Return (tally_row header imageid_index c row),
   FileSystem
     (alter (append_rows (kept imageid_index [row])) output_path (files fs))
     (dirs fs)).
Proof.
  unfold process_row, tally_row, kept. rewrite filter_cons, filter_nil.
  destruct (accepts imageid_index row) eqn:E; simpl.
  - unfold mbind, IO_bind, csv_writerow. simpl.
    destruct (transformed_count c + 1 <=? 5); unfold mret, IO_ret;
      do 2 f_equal; apply alter_ext; by intros [].
  - unfold mret, IO_ret. rewrite alter_append_nil. by destruct fs.
Qed.

Lemma append_rows_app r1 r2 f :
  append_rows r2 (append_rows r1 f) = append_rows (r1 ++ r2) f.
Proof. destruct f; simpl; [|done]. by rewrite app_assoc. Qed.

Lemma process_rows_run output_path header imageid_index rows : ∀ c fs,
  process_rows output_path header imageid_index rows c fs =
  (Return (tally header imageid_index rows c),
   FileSystem
     (alter (append_rows (kept imageid_index rows)) output_path (files fs))
     (dirs fs)).
Proof.
  induction rows as [|row rows IH]; intros c fs.
  - simpl. unfold mret, IO_ret, kept. rewrite filter_nil, alter_append_nil.
    by destruct fs.
  - simpl. erewrite bind_run by apply process_row_run. rewrite IH. simpl.
    do 2 f_equal. rewrite alter_alter_eq. apply alter_ext.
    intros f _. simpl. rewrite append_rows_app. f_equal.
    unfold kept. rewrite (filter_cons _ row rows), filter_cons, filter_nil.
    by case_decide.
Qed.

Section tally.
Context (header : list string) (imageid_index : nat).

Lemma tally_counts rows : ∀ c,
  let c' := tally header imageid_index rows c in
  initial_count c' = initial_count c + length rows ∧
  transformed_count c' =
    transformed_count c + length (kept imageid_index rows) ∧
  filtered_count c' =
    filtered_count c + (length rows - length (kept imageid_index rows)).
Proof.
  induction rows as [|row rows IH]; intros c; simpl; [lia|].
  destruct (IH (tally_row header imageid_index c row)) as (H1 & H2 & H3).
  unfold tally in *. rewrite H1, H2, H3. unfold kept, tally_row.
  rewrite filter_cons.
  pose proof (length_filter (λ row, accepts imageid_index row = true) rows).
  destruct (accepts imageid_index row) eqn:E; simpl; lia.
Qed.

Lemma tally_samples rows : ∀ c,
  length (sample_rows c) = Nat.min 5 (transformed_count c) →
  sample_rows (tally header imageid_index rows c) =
  sample_rows c ++
  (make_sample_row header
     <$> take (5 - transformed_count c) (kept imageid_index rows)).
Proof.
  induction rows as [|row rows IH]; intros c Hc.
  - unfold kept. simpl. by rewrite filter_nil, take_nil, app_nil_r.
  - change (tally header imageid_index (row :: rows) c)
      with (tally header imageid_index rows
              (tally_row header imageid_index c row)).
    rewrite IH.
    + unfold tally_row, kept. rewrite filter_cons.
      destruct (accepts imageid_index row) eqn:E; simpl; [|done].
      destruct (Nat.leb_spec (transformed_count c + 1) 5) as [Hle|Hgt].
      * replace (5 - transformed_count c)
          with (S (5 - (transformed_count c + 1))) by lia.
        simpl. by rewrite <- app_assoc.
      * replace (5 - (transformed_count c + 1)) with 0 by lia.
        replace (5 - transformed_count c) with 0 by lia. done.
    + unfold tally_row.
      destruct (accepts imageid_index row);
        cbn [sample_rows transformed_count]; [|done].
      destruct (Nat.leb_spec (transformed_count c + 1) 5);
        rewrite ?length_app, Hc; cbn [length]; lia.
Qed.

End tally.

(** ** Successful runs of [run_csv_etl] *)

(** Reads off a [mret] (or refutes a [raise]) in hypothesis [H]. *)
Ltac io_return H :=
  cbv [mret IO_ret raise] in H; first [discriminate H | injection H as <- <-].

Lemma choose_output_path_Return ck out fs outp fs1 :
  choose_output_path ck out fs = (Return outp, fs1) →
  outp = chosen_output_path ck out ∧ files fs1 = files fs.
Proof.
  unfold choose_output_path. destruct out as [p|]; intros H;
    apply bind_Return in H as (u & fs2 & Hm & H);
    apply makedirs_Return in Hm as [Hm _];
    io_return H; by rewrite Hm.
Qed.

(** A run that reports success read a table with an ['ImageID'] column,
    returns the counters of the loop over its data rows, and leaves the
    header and the kept rows in the output file. *)
Lemma run_csv_etl_succeeded ck inp out fs res fs' :
  run_csv_etl ck inp out fs = (Return res, fs') →
  succeeded res →
  ∃ header data idx,
    files fs !! default default_input_path inp
      = Some (CsvFile (header :: data)) ∧
    Py.index "ImageID" header = Some idx ∧
    res = success_result ck (tally header idx data counters0)
            (chosen_output_path ck out) ∧
    files fs' !! chosen_output_path ck out
      = Some (CsvFile (header :: kept idx data)).
Proof.
  unfold run_csv_etl. set (input_path := default default_input_path inp).
  intros H Hs.
  apply bind_Return in H as (found & fs1 & Hf & H).
  injection Hf as <- <-.
  destruct (os_path.exists_ fs input_path); simpl in H; cycle 1.
  { io_return H. by apply failure_not_succeeded in Hs. }
  apply bind_Return in H as (outp & fs1 & Hc & H).
  apply choose_output_path_Return in Hc as [-> Hfiles].
  set (outp := chosen_output_path ck out) in *.
  apply try_except_Return in H as [H|(e & fs2 & _ & H)]; cycle 1.
  { io_return H. by apply failure_not_succeeded in Hs. }
  unfold csv_etl_body in H.
  apply bind_Return in H as (u1 & fs2 & Hr & H).
  apply open_r_Return in Hr as [-> _].
  apply bind_Return in H as (u2 & fs2 & Hw & H).
  apply open_w_Return in Hw as ->.
  apply bind_Return in H as (rows & fs2 & Hrd & H).
  apply csv_read_Return in Hrd as [-> Hrows]. simpl in Hrows.
  destruct rows as [|header data]; [io_return H|].
  apply bind_Return in H as (u3 & fs2 & Hwr & H).
  injection Hwr as _ <-. simpl in H.
  destruct (Py.index "ImageID" header) as [idx|] eqn:Hidx; cycle 1.
  { io_return H. by apply failure_not_succeeded in Hs. }
  apply bind_Return in H as (c & fs2 & Hp & H).
  rewrite process_rows_run in Hp. injection Hp as <- <-. simpl in H.
  apply bind_Return in H as (u4 & fs2 & Hcp & H).
  apply shutil_copy_Return in Hcp. io_return H.
  assert (input_path ≠ outp) as Hne.
  { intros Heq. rewrite Heq, lookup_insert_eq in Hrows. done. }
  rewrite lookup_insert_ne, Hfiles in Hrows by done.
  exists header, data, idx. repeat split; [done..|].
  rewrite Hcp. simpl.
  by rewrite !lookup_alter, !decide_True, lookup_insert_eq by done.
Qed.

Lemma success_result_fields ck c outp :
  let res := success_result ck c outp in
  succeeded res ∧
  stat res "initial_count" = Some (initial_count c) ∧
  stat res "transformed_count" = Some (transformed_count c) ∧
  stat res "filtered_count" = Some (filtered_count c) ∧
  result_sample_rows res = Some (sample_rows c) ∧
  result_output_path res = Some outp.
Proof. repeat split. Qed.


(** ** The acceptance rule *)

(** C1 (as amended). In the loop of [run_csv_etl], with [imageid_index]
    the position of ['ImageID'] in the header, every row is counted in
    [initial_count], and it is accepted (written to the output and counted
    in [transformed_count]) if and only if [imageid_index] is strictly less
    than the row's length and the value at that index is non-empty after
    trimming; otherwise it is counted in [filtered_count] and nothing is
    written. A row too short to reach [imageid_index], and a row whose
    ImageID value is empty or all white space, is rejected. *)
Theorem C1_row_accepted_iff output_path header imageid_index c row fs :
  Py.index "ImageID" header = Some imageid_index →
  let accepted :=
    imageid_index < length row ∧
    ∃ v, row !! imageid_index = Some v ∧ Py.strip v ≠ "" in
  ∃ c' fs',
    process_row output_path header imageid_index c row fs = (Return c', fs') ∧
    initial_count c' = initial_count c + 1 ∧
    (accepted ∧
       transformed_count c' = transformed_count c + 1 ∧
       filtered_count c' = filtered_count c ∧
       fs' = FileSystem (alter (append_rows [row]) output_path (files fs))
                        (dirs fs)
     ∨ ¬ accepted ∧
       transformed_count c' = transformed_count c ∧
       filtered_count c' = filtered_count c + 1 ∧
       fs' = fs) ∧
    (length row ≤ imageid_index → ¬ accepted) ∧
    (∀ v, row !! imageid_index = Some v → Py.all_space v = true → ¬ accepted).
Proof.
  intros _ accepted. eexists _, _. split; [apply process_row_run|].
  assert (accepts imageid_index row = true ↔ accepted) as Hacc
    by apply accepts_iff.
  unfold tally_row, kept. rewrite filter_cons, filter_nil.
  destruct (accepts imageid_index row) eqn:E; simpl.
  - split; [done|]. split.
    + left. by split; [apply Hacc|].
    + split.
      * intros Hle [Hlt _]. lia.
      * intros v Hv Hsp. apply accepts_not_blank in E as (v' & Hv' & Hns).
        congruence.
  - assert (¬ accepted) as Hn by (rewrite <- Hacc; congruence).
    split; [done|]. split; [|done].
    right. split; [done|]. rewrite alter_append_nil. by destruct fs.
Qed.

Lemma C1_row_accepted_iff_witness :
  ∃ c' fs',
    process_row "out/o.csv" labels_header 0 counters0 ["i2"; "dog"; "0.8"]
      (example_fs scenario_table) = (Return c', fs') ∧
    initial_count c' = 1.
Proof.
  destruct (C1_row_accepted_iff "out/o.csv" labels_header 0 counters0
              ["i2"; "dog"; "0.8"] (example_fs scenario_table))
    as (c' & fs' & H1 & H2 & _); [reflexivity|].
  by exists c', fs'.
Defined.

(** C1 as stated fails: a row shorter than the header is accepted when it
    is long enough to hold a non-blank ImageID. Under the header
    [ImageID,LabelName,Confidence] the one-field row [["i1"]] is written
    and counted in [transformed_count], not in [filtered_count]. *)
Lemma C1_short_row_is_accepted :
  let row := ["i1"] in
  let run := run_csv_etl example_clock None None
               (example_fs [labels_header; row]) in
  length row < length labels_header ∧
  stat (value_or ∅ run.1) "transformed_count" = Some 1 ∧
  stat (value_or ∅ run.1) "filtered_count" = Some 0 ∧
  files run.2 !! chosen_output_path example_clock None
    = Some (CsvFile [labels_header; row]).
Proof. split; [simpl; lia|]. vm_compute. done. Qed.

(** ** Statistics *)

(** C2. Every successful run of [run_csv_etl] returns statistics with
    [initial_count == transformed_count + filtered_count]; [initial_count]
    is the number of data rows of the input. *)
Theorem C2_counts_add_up ck inp out fs res fs' :
  run_csv_etl ck inp out fs = (Return res, fs') →
  succeeded res →
  ∃ header data i t f,
    files fs !! default default_input_path inp
      = Some (CsvFile (header :: data)) ∧
    stat res "initial_count" = Some i ∧
    stat res "transformed_count" = Some t ∧
    stat res "filtered_count" = Some f ∧
    i = length data ∧
    i = t + f.
Proof.
  intros H Hs.
  apply run_csv_etl_succeeded in H as (header & data & idx & Hf & _ & -> & _);
    [|done].
  destruct (tally_counts header idx data counters0) as (H1 & H2 & H3).
  pose proof (length_filter (λ row, accepts idx row = true) data) as Hle.
  fold (kept idx data) in Hle.
  exists header, data. eexists _, _, _. split; [done|].
  repeat split; simpl in *; lia.
Qed.

Lemma C2_counts_add_up_witness :
  ∃ header data i t f,
    files (example_fs scenario_table) !! default default_input_path None
      = Some (CsvFile (header :: data)) ∧
    stat (value_or ∅ scenario_run.1) "initial_count" = Some i ∧
    stat (value_or ∅ scenario_run.1) "transformed_count" = Some t ∧
    stat (value_or ∅ scenario_run.1) "filtered_count" = Some f ∧
    i = length data ∧
    i = t + f.
Proof.
  apply (C2_counts_add_up example_clock None None _ _ scenario_run.2);
    vm_compute; reflexivity.
Defined.

(** ** The preview sample *)

(** C4. The [sample_rows] of a successful run has length
    [min(5, transformed_count)]; its elements are the first
    [min(5, transformed_count)] accepted rows in arrival order, each as a
    mapping from every header name to the row's value in that column, the
    empty string where the row has no such position. *)
Theorem C4_sample_rows ck inp out fs res fs' :
  run_csv_etl ck inp out fs = (Return res, fs') →
  succeeded res →
  ∃ header data imageid_index t samples,
    files fs !! default default_input_path inp
      = Some (CsvFile (header :: data)) ∧
    Py.index "ImageID" header = Some imageid_index ∧
    stat res "transformed_count" = Some t ∧
    t = length (kept imageid_index data) ∧
    result_sample_rows res = Some samples ∧
    length samples = Nat.min 5 t ∧
    Forall2 (padded_record header)
            (take (Nat.min 5 t) (kept imageid_index data)) samples.
Proof.
  intros H Hs.
  apply run_csv_etl_succeeded
    in H as (header & data & idx & Hf & Hidx & -> & _); [|done].
  destruct (tally_counts header idx data counters0) as (_ & H2 & _).
  pose proof (tally_samples header idx data counters0 eq_refl) as Hsm.
  simpl in H2, Hsm.
  exists header, data, idx, (length (kept idx data)),
    (sample_rows (tally header idx data counters0)).
  split; [done|]. split; [done|].
  split; [by rewrite <- H2|]. split; [done|]. split; [reflexivity|].
  rewrite Hsm. split.
  - rewrite length_fmap, length_take. lia.
  - replace (take (Nat.min 5 (length (kept idx data))) (kept idx data))
      with (take 5 (kept idx data)); cycle 1.
    { destruct (Nat.le_gt_cases 5 (length (kept idx data))).
      - by rewrite Nat.min_l.
      - by rewrite Nat.min_r, !take_ge by lia. }
    apply Forall2_fmap_r, Forall_Forall2_diag, Forall_forall.
    intros row _. apply make_sample_row_padded.
Qed.

Lemma C4_sample_rows_witness :
  ∃ header data imageid_index t samples,
    files (example_fs scenario_table) !! default default_input_path None
      = Some (CsvFile (header :: data)) ∧
    Py.index "ImageID" header = Some imageid_index ∧
    stat (value_or ∅ scenario_run.1) "transformed_count" = Some t ∧
    t = length (kept imageid_index data) ∧
    result_sample_rows (value_or ∅ scenario_run.1) = Some samples ∧
    length samples = Nat.min 5 t ∧
    Forall2 (padded_record header)
            (take (Nat.min 5 t) (kept imageid_index data)) samples.
Proof.
  apply (C4_sample_rows example_clock None None _ _ scenario_run.2);
    vm_compute; reflexivity.
Defined.

(** C5. On the header [ImageID,LabelName,Confidence] and the rows
    [["","cat","0.9"]], [["i2","dog","0.8"]], [["i3","","0.5"]], a
    successful run returns [initial_count = 3], [transformed_count = 2],
    [filtered_count = 1] and the two accepted rows as its sample. *)
Theorem C5_scenario ck inp out fs res fs' :
  files fs !! default default_input_path inp = Some (CsvFile scenario_table) →
  run_csv_etl ck inp out fs = (Return res, fs') →
  succeeded res →
  stat res "initial_count" = Some 3 ∧
  stat res "transformed_count" = Some 2 ∧
  stat res "filtered_count" = Some 1 ∧
  result_sample_rows res =
    Some [ {[ "ImageID" := "i2"; "LabelName" := "dog";
              "Confidence" := "0.8" ]};
           {[ "ImageID" := "i3"; "LabelName" := "";
              "Confidence" := "0.5" ]} ].
Proof.
  intros Hin H Hs.
  apply run_csv_etl_succeeded
    in H as (header & data & idx & Hf & Hidx & -> & _); [|done].
  rewrite Hin in Hf. injection Hf as <- <-.
  injection Hidx as <-.
  match goal with
  | |- context [success_result ck ?c ?p] =>
      destruct (success_result_fields ck c p) as (_ & H1 & H2 & H3 & H4 & _)
  end.
  rewrite H1, H2, H3, H4.
  repeat split; vm_compute; reflexivity.
Qed.

Lemma C5_scenario_witness :
  value_or ∅ scenario_run.1 =
    success_result example_clock
      (Counters 3 2 1
         [ {[ "ImageID" := "i2"; "LabelName" := "dog";
              "Confidence" := "0.8" ]};
           {[ "ImageID" := "i3"; "LabelName" := "";
              "Confidence" := "0.5" ]} ])
      "data/output/csv_20240101_120000/processed_data.csv" ∧
  stat (value_or ∅ scenario_run.1) "initial_count" = Some 3 ∧
  stat (value_or ∅ scenario_run.1) "transformed_count" = Some 2 ∧
  stat (value_or ∅ scenario_run.1) "filtered_count" = Some 1 ∧
  result_sample_rows (value_or ∅ scenario_run.1) =
    Some [ {[ "ImageID" := "i2"; "LabelName" := "dog";
              "Confidence" := "0.8" ]};
           {[ "ImageID" := "i3"; "LabelName" := "";
              "Confidence" := "0.5" ]} ].
Proof.
  split; [vm_compute; reflexivity|].
  apply (C5_scenario example_clock None None (example_fs scenario_table) _
           scenario_run.2); vm_compute; reflexivity.
Defined.

(** ** The written output *)

(** C7. When [run_csv_etl] succeeds with [transformed_count >= 1], the
    file at the returned [output_path] starts with the input header,
    unchanged and in order; every data row after it has, in the column of
    ['ImageID'], a value that is non-empty after trimming; and there is at
    least one data row. *)
Theorem C7_output_passes_validation ck inp out fs res fs' t :
  run_csv_etl ck inp out fs = (Return res, fs') →
  succeeded res →
  stat res "transformed_count" = Some t →
  1 ≤ t →
  ∃ header data imageid_index output_path out_rows,
    files fs !! default default_input_path inp
      = Some (CsvFile (header :: data)) ∧
    Py.index "ImageID" header = Some imageid_index ∧
    result_output_path res = Some output_path ∧
    files fs' !! output_path = Some (CsvFile (header :: out_rows)) ∧
    Forall (λ row, ∃ v, row !! imageid_index = Some v ∧ Py.strip v ≠ "")
           out_rows ∧
    length out_rows = t ∧
    1 ≤ length out_rows.
Proof.
  intros H Hs Ht Hge.
  apply run_csv_etl_succeeded
    in H as (header & data & idx & Hf & Hidx & -> & Hout); [|done].
  destruct (tally_counts header idx data counters0) as (_ & H2 & _).
  destruct (success_result_fields ck (tally header idx data counters0)
              (chosen_output_path ck out)) as (_ & _ & Ht' & _ & _ & Hp).
  cbv zeta in Ht', Hp. rewrite Ht' in Ht. injection Ht as <-.
  simpl in H2.
  exists header, data, idx, (chosen_output_path ck out), (kept idx data).
  repeat split; try done; [|lia..].
  apply Forall_forall. intros row Hrow.
  apply list_elem_of_filter in Hrow as [Hacc _].
  by apply accepts_iff in Hacc as [_ ?].
Qed.

Lemma C7_output_passes_validation_witness :
  ∃ header data imageid_index output_path out_rows,
    files (example_fs scenario_table) !! default default_input_path None
      = Some (CsvFile (header :: data)) ∧
    Py.index "ImageID" header = Some imageid_index ∧
    result_output_path (value_or ∅ scenario_run.1) = Some output_path ∧
    files scenario_run.2 !! output_path = Some (CsvFile (header :: out_rows)) ∧
    Forall (λ row, ∃ v, row !! imageid_index = Some v ∧ Py.strip v ≠ "")
           out_rows ∧
    length out_rows = 2 ∧
    1 ≤ length out_rows.
Proof.
  apply (C7_output_passes_validation example_clock None None
           (example_fs scenario_table));
    [vm_compute; reflexivity..|lia].
Defined.

(** ** Determinism *)

(** C10. The statistics and the sample of a successful run depend on the
    contents of the input file only: two successful runs over input files
    with the same contents return the same three counts and the same
    [sample_rows], whatever the clocks, the paths, and the other files
    and directories of the two file systems. *)
Theorem C10_statistics_depend_on_input_only
    ck1 ck2 inp1 inp2 out1 out2 fs1 fs2 res1 res2 fs1' fs2' :
  files fs1 !! default default_input_path inp1
    = files fs2 !! default default_input_path inp2 →
  run_csv_etl ck1 inp1 out1 fs1 = (Return res1, fs1') →
  run_csv_etl ck2 inp2 out2 fs2 = (Return res2, fs2') →
  succeeded res1 →
  succeeded res2 →
  stat res1 "initial_count" = stat res2 "initial_count" ∧
  stat res1 "transformed_count" = stat res2 "transformed_count" ∧
  stat res1 "filtered_count" = stat res2 "filtered_count" ∧
  result_sample_rows res1 = result_sample_rows res2.
Proof.
  intros Heq H1 H2 Hs1 Hs2.
  apply run_csv_etl_succeeded
    in H1 as (h1 & d1 & i1 & Hf1 & Hi1 & -> & _); [|done].
  apply run_csv_etl_succeeded
    in H2 as (h2 & d2 & i2 & Hf2 & Hi2 & -> & _); [|done].
  rewrite Heq, Hf2 in Hf1. injection Hf1 as <- <-.
  rewrite Hi2 in Hi1. injection Hi1 as <-.
  done.
Qed.

Lemma C10_statistics_depend_on_input_only_witness :
  let run2 := run_csv_etl (Clock "19991231_235959" "1999-12-31T23:59:59")
                (Some "in.csv") (Some "data/output/o.csv")
                (FileSystem {[ "in.csv" := CsvFile scenario_table;
                               "data/output/o.csv" := CsvFile [["stale"]] ]}
                            ∅) in
  stat (value_or ∅ scenario_run.1) "initial_count"
    = stat (value_or ∅ run2.1) "initial_count" ∧
  stat (value_or ∅ scenario_run.1) "transformed_count"
    = stat (value_or ∅ run2.1) "transformed_count" ∧
  stat (value_or ∅ scenario_run.1) "filtered_count"
    = stat (value_or ∅ run2.1) "filtered_count" ∧
  result_sample_rows (value_or ∅ scenario_run.1)
    = result_sample_rows (value_or ∅ run2.1).
Proof.
  intros run2.
  apply (C10_statistics_depend_on_input_only
           example_clock (Clock "19991231_235959" "1999-12-31T23:59:59")
           None (Some "in.csv") None (Some "data/output/o.csv")
           (example_fs scenario_table)
           (FileSystem {[ "in.csv" := CsvFile scenario_table;
                          "data/output/o.csv" := CsvFile [["stale"]] ]} ∅)
           _ _ scenario_run.2 run2.2);
    vm_compute; reflexivity.
Defined.

(** ** Failures *)

(** C3, at a header without ['ImageID']: the run fails with the schema
    error, but only after it has created the output file and written the
    header row to it. *)
Theorem C3_schema_error_after_header_written :
  let table := [["LabelName"; "Confidence"]; ["cat"; "0.9"]] in
  let fs := FileSystem {[ "in.csv" := CsvFile table ]} ∅ in
  let run := run_csv_etl example_clock (Some "in.csv") (Some "out/o.csv") fs in
  run.1 = Return (failure_result example_clock
                    "CSV file does not contain an 'ImageID' column") ∧
  files fs !! "out/o.csv" = None ∧
  files run.2 !! "out/o.csv" = Some (CsvFile [["LabelName"; "Confidence"]]) ∧
  "out" ∈ dirs run.2.
Proof.
  repeat split; vm_compute; reflexivity.
Qed.

(** C8, at an output path without a directory part: [os.makedirs("")]
    raises outside the [try], and the exception reaches the caller. *)
Theorem C8_makedirs_error_escapes ck inp output_path fs :
  os_path.exists_ fs (default default_input_path inp) = true →
  os_path.dirname output_path = "" →
  run_csv_etl ck inp (Some output_path) fs = (Raise (FileNotFoundError ""), fs).
Proof.
  intros Hex Hdir. unfold run_csv_etl.
  erewrite bind_run by reflexivity. rewrite Hex. simpl.
  apply bind_raise. unfold choose_output_path. rewrite Hdir.
  by apply bind_raise.
Qed.

Lemma C8_makedirs_error_escapes_witness :
  run_csv_etl example_clock None (Some "out.csv") (example_fs scenario_table)
  = (Raise (FileNotFoundError ""), example_fs scenario_table).
Proof.
  apply (C8_makedirs_error_escapes example_clock None "out.csv"
           (example_fs scenario_table)); vm_compute; reflexivity.
Defined.

(** C6. When the input path does not exist, [run_csv_etl] and
    [run_pandas_etl] return the not-found failure and [ingest] raises
    [FileNotFoundError], and the file system is left as it was: no output
    directory and no output file has been created. *)
Theorem C6_missing_input_creates_nothing `{DataLibraries} ck inp out fs :
  let input_path := default default_input_path inp in
  os_path.exists_ fs input_path = false →
  run_csv_etl ck inp out fs =
    (Return (failure_result ck
               ("Input file " +:+ input_path +:+ " does not exist")), fs) ∧
  run_pandas_etl ck inp out fs =
    (Return (failure_result ck
               ("Input file " +:+ input_path +:+ " does not exist")), fs) ∧
  ingest inp out fs =
    (Raise (Exn "FileNotFoundError"
              ("The input file " +:+ input_path +:+ " does not exist.")), fs).
Proof.
  intros input_path Hex. unfold run_csv_etl, run_pandas_etl, ingest.
  fold input_path. repeat split;
    (erewrite bind_run by reflexivity); by rewrite Hex.
Qed.

Lemma C6_missing_input_creates_nothing_witness :
  let fs := FileSystem ∅ ∅ in
  run_csv_etl example_clock (Some "missing.csv") None fs =
    (Return (failure_result example_clock
               "Input file missing.csv does not exist"), fs) ∧
  run_pandas_etl example_clock (Some "missing.csv") None fs =
    (Return (failure_result example_clock
               "Input file missing.csv does not exist"), fs) ∧
  ingest (Some "missing.csv") None fs =
    (Raise (Exn "FileNotFoundError"
              "The input file missing.csv does not exist."), fs).
Proof.
  apply (C6_missing_input_creates_nothing example_clock (Some "missing.csv")
           None (FileSystem ∅ ∅)).
  vm_compute. reflexivity.
Defined.

(** ** The sibling runners *)

Section siblings.

Context `{DataLibraries}.



End siblings.

(** ** Comparing the three filters *)





